(** * Fractional ranking with tie averaging: [Chapter07/rank.py]

    A shallow embedding of [rank_data], [rerank], [yield_sequence] and
    [ranker], and the properties of one ranking pass.

    Modelling conventions.

    - A Python generator is its observable trace: the items it yields
      before it ends, and the exception (if any) that ends it.
    - An iterator over a materialised list is the list of the items it has
      not produced yet; [next] on the empty list raises [StopIteration].
    - [rerank] and [yield_sequence] call [next] with no handler around
      it.  A [StopIteration] that escapes a generator body does not end
      the generator: the interpreter replaces it by [RuntimeError]
      (PEP 479, the rule of the language from Python 3.7 on).  The
      doctests of the module show the output of an interpreter without
      that rule; the module itself selects none.
    - Rank values are [(base+1+base+dups)/2] with integer operands. The
      Python float holding such a half-integer is exact whenever the
      numerator is below 2^53, so a rank is modelled as the rational [Q].
    - Keys are compared with [<] (by [sorted]) and [==] (by [ranker]);
      these are the two operations of the class [PyOrd].  A key function
      is a total function of the raw item.
    - The depth of the interpreter's call stack is not bounded: the
      nesting of [yield from] grows with the input. *)

From Stdlib Require Import List ZArith QArith Lia Lqa Bool String.
From Stdlib Require Import Permutation Sorted.
Import ListNotations.

(** ** Exceptions and generators *)

Inductive exn : Type := Exn (class_name : string).

Definition StopIteration : exn := Exn "StopIteration".
Definition RuntimeError : exn := Exn "RuntimeError".
Definition IndexError : exn := Exn "IndexError".
Definition AttributeError : exn := Exn "AttributeError".
Definition EmptyInputError : exn := Exn "EmptyInputError".

Record gen (T : Type) : Type := Gen {
  yielded : list T;        (* the items produced, in order *)
  raised : option exn      (* [None]: the generator is exhausted normally *)
}.

Arguments Gen {T} yielded raised.
Arguments yielded {T} g.
Arguments raised {T} g.

Module Generator.

Definition stop {T} : gen T := Gen [] None.

Definition raise {T} (e : exn) : gen T := Gen [] (Some e).

(** [yield x] followed by the rest of the body. *)
Definition yield {T} (x : T) (rest : gen T) : gen T :=
  Gen (x :: yielded rest) (raised rest).

(** [yield from g] followed by the rest of the body: an exception of
    the delegate leaves the body at once. *)
Definition yield_from {T} (g : gen T) (rest : gen T) : gen T :=
  match raised g with
  | None => Gen (yielded g ++ yielded rest) (raised rest)
  | Some _ => g
  end.

(** [for x in g: yield f(x)] with a body that cannot fail. *)
Definition for_yield {T U} (f : T -> U) (g : gen T) : gen U :=
  Gen (map f (yielded g)) (raised g).

(** [next(it)] raised [StopIteration] inside a generator body and no
    handler catches it: the generator fails with
    [RuntimeError: generator raised StopIteration]. *)
Definition uncaught_StopIteration {T} : gen T := raise RuntimeError.

End Generator.
Import Generator.

(** ** Comparable keys *)

(** The two comparisons the code applies to key values. *)
Class PyOrd (K : Type) : Type := {
  py_lt : K -> K -> bool;      (* [a < b], used by [sorted] *)
  py_eq : K -> K -> bool       (* [a == b], used by [ranker] *)
}.

(** Keys are totally ordered up to [==]. *)
Class TotalOrder (K : Type) `{PyOrd K} : Prop := {
  lt_irrefl : forall a, py_lt a a = false;
  lt_trans : forall a b c,
      py_lt a b = true -> py_lt b c = true -> py_lt a c = true;
  eq_trichotomy : forall a b,
      py_eq a b = negb (py_lt a b) && negb (py_lt b a);
  eq_trans : forall a b c,
      py_eq a b = true -> py_eq b c = true -> py_eq a c = true
}.

#[export] Instance PyOrd_Z : PyOrd Z := {| py_lt := Z.ltb; py_eq := Z.eqb |}.

#[export] Instance PyOrd_Q : PyOrd Q :=
  {| py_lt := fun a b => negb (Qle_bool b a); py_eq := Qeq_bool |}.

(** ** [sorted(iterable, key=f)]

    The builtin is stable, ascending, and compares keys with [<] only.
    A stable sort is determined by these three facts; it is written here
    as the insertion sort that moves an item past strictly smaller keys. *)
Section Sorted.
Context {T K : Type} `{PyOrd K}.
Variable f : T -> K.

Fixpoint insert (x : T) (l : list T) : list T :=
  match l with
  | [] => [x]
  | y :: l' => if py_lt (f y) (f x) then y :: insert x l' else x :: l
  end.

Definition sorted (l : list T) : list T := fold_right insert [] l.

(** [x] may stand before [y] in ascending order. *)
Definition ascending (x y : T) : Prop := py_lt (f y) (f x) = false.
End Sorted.

(** ** The data model *)

Section RankData.
(** [A]: the objects that are not [Rank_Data] instances. *)
Variable A : Type.

(** [Source = Union[Rank_Data, Any]]: what a collection to rank holds.
    The [raw] field of a [Rank_Data] is again any object. *)
Inductive Source : Type :=
| Other (a : A)
| Ranked (rd : Rank_Data)
with Rank_Data : Type :=
| mkRank_Data (rank_seq : list Q) (raw : Source).

Definition rank_seq (rd : Rank_Data) : list Q :=
  let (s, _) := rd in s.

Definition raw (rd : Rank_Data) : Source :=
  let (_, r) := rd in r.

(** [isinstance(x, Rank_Data)] *)
Definition isinstance_Rank_Data (x : Source) : bool :=
  match x with Ranked _ => true | Other _ => false end.

(** A sequence used as [Sequence[Rank_Data]]: reading [obj.raw] on an
    item that is not a [Rank_Data] raises [AttributeError]. *)
Fixpoint as_Rank_Data_seq (l : list Source) : option (list Rank_Data) :=
  match l with
  | [] => Some []
  | Ranked rd :: l' => option_map (cons rd) (as_Rank_Data_seq l')
  | Other _ :: _ => None
  end.

(** The argument of [rank_data]: a sequence, or a one-shot iterator
    given by the items it will produce. *)
Inductive Input : Type :=
| Sequence (items : list Source)
| Iterator (items : list Source).

Definition len {T} (l : list T) : Z := Z.of_nat (List.length l).

(** ** The ranking pass *)

Section Pass.
Context {K : Type} `{PyOrd K}.
Variable key : Source -> K.

(** [(base+1+base+dups)/2], a true division. *)
Definition average_rank (base dups : Z) : Q :=
  (inject_Z (base + 1 + base + dups) / 2)%Q.

Fixpoint yield_sequence (rank : Q) (same_rank_iter : list Rank_Data)
  : gen (Q * Rank_Data) :=
  match same_rank_iter with
  | [] =>                       (* head = next(same_rank_iter) *)
      uncaught_StopIteration
  | head :: same_rank_iter' =>
      yield (rank, head)
        (yield_from (yield_sequence rank same_rank_iter') stop)
  end.

Fixpoint ranker (sorted_iter : list Rank_Data) (base : Z)
         (same_rank_seq : list Rank_Data) : gen (Q * Rank_Data) :=
  match sorted_iter with
  | [] =>                       (* except StopIteration *)
      let dups := len same_rank_seq in
      yield_from
        (yield_sequence (average_rank base dups) same_rank_seq)
        stop
  | value :: sorted_iter' =>
      match same_rank_seq with
      | [] => raise IndexError  (* same_rank_seq[0] *)
      | first :: _ =>
          if py_eq (key (raw value)) (key (raw first)) then
            yield_from
              (ranker sorted_iter' base (same_rank_seq ++ [value]))
              stop
          else
            let dups := len same_rank_seq in
            yield_from
              (yield_sequence (average_rank base dups) same_rank_seq)
              (yield_from
                 (ranker sorted_iter' (base + dups) [value])
                 stop)
      end
  end.

Definition rerank (rank_data_iter : list Rank_Data)
  : gen (Q * Rank_Data) :=
  let sorted_iter := sorted (fun obj => key (raw obj)) rank_data_iter in
  match sorted_iter with
  | [] =>                       (* head = next(sorted_iter) *)
      uncaught_StopIteration
  | head :: sorted_iter' =>
      yield_from (ranker sorted_iter' 0 [head]) stop
  end.

(** The loop body of [rank_data]:
    [Rank_Data(rd.rank_seq + (r,), rd.raw)]. *)
Definition compose (p : Q * Rank_Data) : Rank_Data :=
  let (r, rd) := p in mkRank_Data (rank_seq rd ++ [r]) (raw rd).

(** [rank_data] on a sequence (second and third case). *)
Definition rank_data_seq (seq : list Source) : gen Rank_Data :=
  match seq with
  | [] => raise IndexError      (* seq_or_iter[0] *)
  | first :: _ =>
      if isinstance_Rank_Data first then
        (* data = seq_or_iter *)
        match as_Rank_Data_seq seq with
        | Some data => for_yield compose (rerank data)
        | None => raise AttributeError
        end
      else
        let empty_ranks : list Q := [] in
        let data := map (fun raw_data => mkRank_Data empty_ranks raw_data)
                        seq in
        for_yield compose (rerank data)
  end.

Definition rank_data (seq_or_iter : Input) : gen Rank_Data :=
  match seq_or_iter with
  | Iterator items =>
      (* yield from rank_data(list(seq_or_iter), key); return *)
      yield_from (rank_data_seq items) stop
  | Sequence items => rank_data_seq items
  end.

End Pass.
End RankData.

Arguments rank_seq {A} rd.
Arguments raw {A} rd.
Arguments isinstance_Rank_Data {A} x.
Arguments as_Rank_Data_seq {A} l.
Arguments yield_sequence {A} rank same_rank_iter.
Arguments ranker {A K _} key sorted_iter base same_rank_seq.
Arguments rerank {A K _} key rank_data_iter.
Arguments compose {A} p.
Arguments rank_data_seq {A K _} key seq.
Arguments rank_data {A K _} key seq_or_iter.
Arguments Other {A} a.
Arguments Ranked {A} rd.
Arguments mkRank_Data {A} rank_seq raw.
Arguments Sequence {A} items.
Arguments Iterator {A} items.

(** ** Vocabulary of the properties *)

Definition Qsum (l : list Q) : Q := fold_right Qplus 0%Q l.

(** The rank values a pass emits, in emission order. *)
Definition ranks {R} (g : gen (Q * R)) : list Q := map fst (yielded g).

(** One tie group leaves the resolver: every member with the same rank. *)
Definition flush {R} (rank : Q) (run : list R) : list (Q * R) :=
  map (pair rank) run.

(** Every rank is the mean of a block of positions inside the scan. *)
Definition rank_within (lo hi : Z) (r : Q) : Prop :=
  exists base dups : Z,
    r = average_rank base dups /\
    (lo <= base)%Z /\ (1 <= dups)%Z /\ (base + dups <= hi)%Z.

(** The longest prefix of [l] whose items satisfy [p]. *)
Fixpoint take_while {T} (p : T -> bool) (l : list T) : list T :=
  match l with
  | [] => []
  | x :: l' => if p x then x :: take_while p l' else []
  end.

Section RankOf.
Variable A : Type.
Context {K : Type} `{PyOrd K}.
Variable key : Source A -> K.

(** The records of [l] whose key is smaller than the key of [x]. *)
Definition smaller (x : Rank_Data A) (l : list (Rank_Data A)) :=
  filter (fun y => py_lt (key (raw y)) (key (raw x))) l.

(** The records of [l] whose key equals the key of [x]. *)
Definition tied (x : Rank_Data A) (l : list (Rank_Data A)) :=
  filter (fun y => py_eq (key (raw y)) (key (raw x))) l.

(** The mean of the positions that follow the smaller records and are
    shared by the tied ones. *)
Definition rank_of (l : list (Rank_Data A)) (x : Rank_Data A) : Q :=
  average_rank (len (smaller x l)) (len (tied x l)).

(** No record of [l] has a key smaller than the key of [x]. *)
Definition leading (l : list (Rank_Data A)) (x : Rank_Data A) : bool :=
  forallb (fun y => negb (py_lt (key (raw y)) (key (raw x)))) l.

(** The run the resolver holds when it first flushes: the run it was
    started with, and the records of the iterator up to the first one
    whose key differs from the key of [first]. *)
Definition first_run (first : Rank_Data A)
           (run sorted_iter : list (Rank_Data A)) : list (Rank_Data A) :=
  (first :: run)
    ++ take_while (fun v => py_eq (key (raw v)) (key (raw first)))
                  sorted_iter.
End RankOf.

Arguments smaller {A K _} key x l.
Arguments tied {A K _} key x l.
Arguments rank_of {A K _} key l x.
Arguments leading {A K _} key l x.
Arguments first_run {A K _} key first run sorted_iter.

Section Normalizer.
Variable A : Type.

Definition items_of (seq_or_iter : Input A) : list (Source A) :=
  match seq_or_iter with Sequence items | Iterator items => items end.

(** The inputs [rank_data] is written for: when the first item is a
    [Rank_Data], all items are. *)
Definition coherent (items : list (Source A)) : bool :=
  match items with
  | Ranked _ :: _ => forallb isinstance_Rank_Data items
  | _ => true
  end.

(** The records [rank_data] hands to [rerank]. *)
Definition normalized (items : list (Source A)) : list (Rank_Data A) :=
  match items with
  | Ranked _ :: _ =>
      flat_map (fun x => match x with Ranked rd => [rd] | Other _ => [] end)
               items
  | _ => map (fun raw_data => mkRank_Data [] raw_data) items
  end.
End Normalizer.

Arguments items_of {A} seq_or_iter.
Arguments coherent {A} items.
Arguments normalized {A} items.

Section TwoInputs.
Context {A1 A2 : Type} {K1 K2 : Type} `{PyOrd K1} `{PyOrd K2}.
Variable key1 : Source A1 -> K1.
Variable key2 : Source A2 -> K2.

(** Two collections of the same size whose keys compare alike, position
    by position: the same pairs are in order, the same pairs are tied. *)
Definition same_order (d1 : list (Rank_Data A1)) (d2 : list (Rank_Data A2))
  : Prop :=
  Forall2
    (fun x1 x2 =>
       Forall2
         (fun y1 y2 =>
            py_lt (key1 (raw y1)) (key1 (raw x1))
            = py_lt (key2 (raw y2)) (key2 (raw x2)) /\
            py_eq (key1 (raw y1)) (key1 (raw x1))
            = py_eq (key2 (raw y2)) (key2 (raw x2)))
         d1 d2)
    d1 d2.
End TwoInputs.

(** ** The data of the doctests *)

Module Doctest.

(** [scalars = [0.8, 1.2, 1.2, 2.3, 18]] *)
Definition scalars : list (Source Q) :=
  map Other [0.8; 1.2; 1.2; 2.3; 18]%Q.

(** The default key, [lambda obj: obj], on scalars. *)
Definition identity (obj : Source Q) : Q :=
  match obj with Other x => x | Ranked _ => 0%Q end.

(** [pairs = ((7, 2.3), (21, 1.2), (32, 0.8), (5, 1.2), (11, 18))] *)
Definition pairs : list (Source (Q * Q)) :=
  map Other [(7, 2.3); (21, 1.2); (32, 0.8); (5, 1.2); (11, 18)]%Q.

(** [key=lambda x: x[0]] and [key=lambda x: x[1]] *)
Definition item0 (obj : Source (Q * Q)) : Q :=
  match obj with Other (x, _) => x | Ranked _ => 0%Q end.

Definition item1 (obj : Source (Q * Q)) : Q :=
  match obj with Other (_, y) => y | Ranked _ => 0%Q end.

(** [Rank_Data(rank_seq=(), raw=x)] *)
Definition unranked {A} (x : Source A) : Rank_Data A := mkRank_Data [] x.

(** What a doctest prints of a record: floats are shown in lowest terms. *)
Definition shown {A} (rd : Rank_Data A) : list Q * Source A :=
  (map Qred (rank_seq rd), raw rd).

Definition shown_pair {A} (p : Q * Rank_Data A) : Q * Source A :=
  (Qred (fst p), raw (snd p)).

(** Integer keys tied and ordered like [scalars]. *)
Definition marks : list (Rank_Data Z) :=
  map (fun z => mkRank_Data [] (Other z)) [10; 25; 25; 40; 41]%Z.

Definition mark (obj : Source Z) : Z :=
  match obj with Other z => z | Ranked _ => 0%Z end.

(** The value the doctest of [rank_data] expects of [rank_x]: the pairs
    with their rank by [x[0]], in that order. *)
Definition rank_x : list (Rank_Data (Q * Q)) :=
  [mkRank_Data [1] (Other (5, 1.2)); mkRank_Data [2] (Other (7, 2.3));
   mkRank_Data [3] (Other (11, 18)); mkRank_Data [4] (Other (21, 1.2));
   mkRank_Data [5] (Other (32, 0.8))]%Q.

End Doctest.

(** ** Generators: equations *)

Lemma yield_from_stop {T} (g : gen T) : yield_from g stop = g.
Proof.
  destruct g as [ys [e|]]; unfold yield_from; cbn; [reflexivity|].
  now rewrite app_nil_r.
Qed.

(** ** Keys: consequences of the order laws *)

Section OrderFacts.
Context {K : Type} `{TotalOrder K}.

Lemma py_eq_refl a : py_eq a a = true.
Proof. now rewrite eq_trichotomy, lt_irrefl. Qed.

Lemma py_eq_sym a b : py_eq a b = py_eq b a.
Proof. rewrite !eq_trichotomy. apply andb_comm. Qed.

Lemma py_eq_not_lt a b : py_eq a b = true -> py_lt a b = false.
Proof.
  rewrite eq_trichotomy. destruct (py_lt a b); [discriminate|reflexivity].
Qed.

Lemma py_eq_not_gt a b : py_eq a b = true -> py_lt b a = false.
Proof. rewrite py_eq_sym. apply py_eq_not_lt. Qed.

Lemma py_lt_not_eq a b : py_lt a b = true -> py_eq a b = false.
Proof. intros L. rewrite eq_trichotomy, L. reflexivity. Qed.

Lemma py_lt_asym a b : py_lt a b = true -> py_lt b a = false.
Proof.
  intros L. destruct (py_lt b a) eqn:G; [|reflexivity].
  pose proof (lt_trans _ _ _ L G) as C. now rewrite lt_irrefl in C.
Qed.

Lemma py_total a b :
  py_lt a b = false -> py_eq a b = false -> py_lt b a = true.
Proof.
  intros L E. rewrite eq_trichotomy, L in E.
  destruct (py_lt b a); [reflexivity|discriminate].
Qed.

Lemma py_lt_eq a b c :
  py_lt a b = true -> py_eq b c = true -> py_lt a c = true.
Proof.
  intros L E. destruct (py_lt a c) eqn:AC; [reflexivity|].
  destruct (py_lt c a) eqn:CA.
  - pose proof (lt_trans _ _ _ CA L) as CB.
    now rewrite (py_eq_not_gt _ _ E) in CB.
  - assert (py_eq a c = true) as E'
        by now rewrite eq_trichotomy, AC, CA.
    rewrite py_eq_sym in E.
    pose proof (eq_trans _ _ _ E' E) as AB.
    now rewrite (py_eq_not_lt _ _ AB) in L.
Qed.

(** [a <= b], as [sorted] sees it: not [b < a]. *)
Lemma py_le_trans a b c :
  py_lt b a = false -> py_lt c b = false -> py_lt c a = false.
Proof.
  intros BA CB. destruct (py_lt c a) eqn:CA; [|reflexivity].
  destruct (py_eq a b) eqn:E.
  - now rewrite (py_lt_eq _ _ _ CA E) in CB.
  - rewrite py_eq_sym in E.
    now rewrite (lt_trans _ _ _ CA (py_total _ _ BA E)) in CB.
Qed.

Lemma py_lt_le a b c :
  py_lt a b = true -> py_lt c b = false -> py_lt a c = true.
Proof.
  intros AB CB. destruct (py_eq b c) eqn:E.
  - exact (py_lt_eq _ _ _ AB E).
  - rewrite py_eq_sym in E.
    exact (lt_trans _ _ _ AB (py_total _ _ CB E)).
Qed.
End OrderFacts.

(** ** Lists: a filter that keeps nothing *)

Lemma filter_none {T} (p : T -> bool) l :
  Forall (fun x => p x = false) l -> filter p l = [].
Proof.
  induction 1 as [|x l P F IH]; cbn; [reflexivity|].
  now rewrite P.
Qed.

(** ** [sorted]: a permutation, ascending, stable *)

Section SortedPermutation.
Context {T K : Type} `{PyOrd K}.
Variable f : T -> K.

Lemma insert_perm x l : Permutation (insert f x l) (x :: l).
Proof.
  induction l as [|y l IH]; cbn; [reflexivity|].
  destruct (py_lt (f y) (f x)); [|reflexivity].
  rewrite IH. apply perm_swap.
Qed.

Lemma sorted_perm l : Permutation (sorted f l) l.
Proof.
  induction l as [|x l IH]; cbn; [reflexivity|].
  fold (sorted f l). rewrite insert_perm. now constructor.
Qed.

Lemma sorted_length l : List.length (sorted f l) = List.length l.
Proof. apply Permutation_length, sorted_perm. Qed.

Lemma sorted_nonempty l : l <> [] -> sorted f l <> [].
Proof.
  intros N E. apply N, length_zero_iff_nil.
  now rewrite <- sorted_length, E.
Qed.
End SortedPermutation.

Section SortedFacts.
Context {T K : Type} `{TotalOrder K}.
Variable f : T -> K.

Lemma insert_ascending x l :
  StronglySorted (ascending f) l -> StronglySorted (ascending f) (insert f x l).
Proof.
  induction 1 as [|y l S IH F]; cbn.
  - repeat constructor.
  - destruct (py_lt (f y) (f x)) eqn:L.
    + constructor; [exact IH|].
      eapply Permutation_Forall; [symmetry; apply insert_perm|].
      constructor; [|exact F]. exact (py_lt_asym _ _ L).
    + constructor; [now constructor|].
      constructor; [exact L|].
      eapply Forall_impl; [|exact F].
      intros z Z. exact (py_le_trans _ _ _ L Z).
Qed.

Lemma sorted_ascending l : StronglySorted (ascending f) (sorted f l).
Proof.
  induction l as [|x l IH]; cbn; [constructor|].
  now apply insert_ascending.
Qed.

(** Stability: the records of one key keep their input order. *)
Lemma insert_stable c x l :
  filter (fun y => py_eq (f y) c) (insert f x l)
  = filter (fun y => py_eq (f y) c) (x :: l).
Proof.
  induction l as [|y l IH]; [reflexivity|].
  cbn [insert]. destruct (py_lt (f y) (f x)) eqn:L; [|reflexivity].
  cbn [filter] in *. rewrite IH.
  destruct (py_eq (f y) c) eqn:Y, (py_eq (f x) c) eqn:X; try reflexivity.
  exfalso. rewrite py_eq_sym in X.
  pose proof (eq_trans _ _ _ Y X) as E.
  now rewrite (py_eq_not_lt _ _ E) in L.
Qed.

Lemma sorted_stable c l :
  filter (fun y => py_eq (f y) c) (sorted f l)
  = filter (fun y => py_eq (f y) c) l.
Proof.
  induction l as [|x l IH]; [reflexivity|].
  cbn [sorted fold_right]. fold (sorted f l).
  rewrite insert_stable. cbn [filter]. now rewrite IH.
Qed.

(** A sequence that is ascending already is left as it is. *)
End SortedFacts.

(** ** Lengths *)

Lemma len_nil {T} : len (@nil T) = 0%Z.
Proof. reflexivity. Qed.

Lemma len_cons {T} (x : T) l : len (x :: l) = (len l + 1)%Z.
Proof. unfold len. cbn [List.length]. lia. Qed.

Lemma len_app {T} (l1 l2 : list T) : len (l1 ++ l2) = (len l1 + len l2)%Z.
Proof. unfold len. rewrite length_app. lia. Qed.

Lemma len_nonneg {T} (l : list T) : (0 <= len l)%Z.
Proof. unfold len. lia. Qed.

Lemma len_pos {T} (l : list T) : l <> [] -> (1 <= len l)%Z.
Proof. destruct l; [congruence|]. rewrite len_cons. pose proof (len_nonneg l). lia. Qed.

(** ** The tie resolver: what it emits before it fails *)

Lemma yield_from_raised {T} (ys : list T) (e : exn) (rest : gen T) :
  yield_from (Gen ys (Some e)) rest = Gen ys (Some e).
Proof. reflexivity. Qed.

Lemma take_while_incl {T} (p : T -> bool) l x :
  In x (take_while p l) -> In x l.
Proof.
  induction l as [|y l IH]; cbn; [tauto|].
  destruct (p y); cbn; [|tauto]. intros [E|I]; [now left|right; auto].
Qed.

Lemma take_while_len {T} (p : T -> bool) l :
  (len (take_while p l) <= len l)%Z.
Proof.
  induction l as [|y l IH]; cbn [take_while]; [reflexivity|].
  destruct (p y); rewrite ?len_cons, ?len_nil;
    pose proof (len_nonneg l); lia.
Qed.

Section Resolver.
Context {A : Type}.
Context {K : Type} `{PyOrd K}.
Variable key : Source A -> K.

Lemma yield_sequence_eq rank (l : list (Rank_Data A)) :
  yield_sequence rank l = Gen (flush rank l) (Some RuntimeError).
Proof.
  induction l as [|x l IH]; [reflexivity|].
  cbn [yield_sequence]. now rewrite yield_from_stop, IH.
Qed.

(** The scan flushes the first run and fails in [yield_sequence]: what
    follows the first flush in the body of [ranker] is never reached. *)
Lemma ranker_first_run it : forall base first run,
  ranker key it base (first :: run)
  = Gen (flush (average_rank base (len (first_run key first run it)))
               (first_run key first run it))
        (Some RuntimeError).
Proof.
  unfold first_run.
  induction it as [|v it IH]; intros base first run.
  - cbn [ranker take_while]. rewrite yield_from_stop, yield_sequence_eq.
    now rewrite app_nil_r.
  - cbn [ranker take_while].
    destruct (py_eq (key (raw v)) (key (raw first))) eqn:E.
    + rewrite yield_from_stop. change ((first :: run) ++ [v])
        with (first :: (run ++ [v])). rewrite IH.
      now rewrite !app_comm_cons, <- !app_assoc.
    + rewrite yield_sequence_eq, yield_from_raised. now rewrite app_nil_r.
Qed.

Lemma first_run_len first run it :
  (1 <= len (first_run key first run it)
   <= len (first :: run) + len it)%Z.
Proof.
  unfold first_run. rewrite len_app.
  pose proof (take_while_len
                (fun v => py_eq (key (raw v)) (key (raw first))) it).
  pose proof (len_nonneg
                (take_while
                   (fun v => py_eq (key (raw v)) (key (raw first))) it)).
  assert (1 <= len (first :: run))%Z by (apply len_pos; discriminate).
  lia.
Qed.

Lemma ranker_rank_within it : forall base first run,
  Forall (rank_within base (base + len (first :: run) + len it))
         (ranks (ranker key it base (first :: run))).
Proof.
  intros base first run. unfold ranks. rewrite ranker_first_run.
  cbn [yielded]. unfold flush. rewrite map_map. cbn [fst].
  apply Forall_forall. intros r I.
  apply in_map_iff in I. destruct I as (x & <- & _).
  exists base, (len (first_run key first run it)).
  pose proof (first_run_len first run it). repeat split; lia.
Qed.

Lemma rerank_scan (data : list (Rank_Data A)) :
  data <> [] ->
  exists head it,
    sorted (fun x => key (raw x)) data = head :: it /\
    rerank key data = ranker key it 0 [head].
Proof.
  intros N. unfold rerank.
  destruct (sorted _ data) as [|head it] eqn:E.
  - now apply (sorted_nonempty (fun x => key (raw x))) in N.
  - exists head, it. now rewrite yield_from_stop.
Qed.

(** Whatever a pass emits is a record of its input. *)
Lemma rerank_emits_input (data : list (Rank_Data A)) :
  Forall (fun out => In (snd out) data) (yielded (rerank key data)).
Proof.
  destruct data as [|first rest] eqn:D; [constructor|]. rewrite <- D.
  assert (data <> []) as N by (rewrite D; discriminate).
  destruct (rerank_scan data N) as (head & it & E & ->).
  rewrite ranker_first_run. cbn [yielded]. unfold flush.
  apply Forall_forall. intros out I.
  apply in_map_iff in I. destruct I as (x & <- & I). cbn [snd].
  apply (Permutation_in _ (sorted_perm (fun x => key (raw x)) data)).
  rewrite E. unfold first_run in I. cbn [app] in I.
  destruct I as [<-|I]; [now left|right].
  exact (take_while_incl _ _ _ I).
Qed.
End Resolver.

(** ** Filters and ranks under permutation *)

Lemma filter_perm {T} (p : T -> bool) l l' :
  Permutation l l' -> Permutation (filter p l) (filter p l').
Proof.
  induction 1 as [|x l l' P IH|x y l|l l' l'' P IH P' IH']; cbn.
  - constructor.
  - destruct (p x); [now constructor|exact IH].
  - destruct (p x), (p y); try reflexivity. apply perm_swap.
  - now transitivity (filter p l').
Qed.

Lemma rank_of_perm {A K} `{PyOrd K} (key : Source A -> K)
      (l l' : list (Rank_Data A)) x :
  Permutation l l' -> rank_of key l x = rank_of key l' x.
Proof.
  intros P. unfold rank_of, smaller, tied, len.
  now rewrite (Permutation_length (filter_perm _ _ _ P)),
    (Permutation_length (filter_perm _ _ _ P)).
Qed.

(** ** Integer and rational keys are totally ordered *)

#[export] Instance TotalOrder_Z : TotalOrder Z.
Proof.
  split; cbn.
  - apply Z.ltb_irrefl.
  - intros a b c. rewrite !Z.ltb_lt. lia.
  - intros a b.
    destruct (Z.eqb_spec a b), (Z.ltb_spec a b), (Z.ltb_spec b a);
      cbn; try reflexivity; lia.
  - intros a b c. rewrite !Z.eqb_eq. congruence.
Qed.

Lemma Qle_bool_false a b : Qle_bool a b = false <-> (b < a)%Q.
Proof.
  split.
  - intros E. apply Qnot_le_lt. intros L.
    apply Qle_bool_iff in L. congruence.
  - intros L. destruct (Qle_bool a b) eqn:E; [|reflexivity].
    apply Qle_bool_iff in E. lra.
Qed.

Lemma Qeq_bool_false a b : Qeq_bool a b = false <-> ~ (a == b)%Q.
Proof.
  split.
  - intros E Q. apply Qeq_bool_iff in Q. congruence.
  - intros N. destruct (Qeq_bool a b) eqn:E; [|reflexivity].
    apply Qeq_bool_iff in E. contradiction.
Qed.

#[export] Instance TotalOrder_Q : TotalOrder Q.
Proof.
  split; cbn.
  - intros a. rewrite negb_false_iff. apply Qle_bool_iff. lra.
  - intros a b c. rewrite !negb_true_iff, !Qle_bool_false. lra.
  - intros a b. rewrite !negb_involutive.
    destruct (Qeq_bool a b) eqn:E.
    + apply Qeq_bool_iff in E. symmetry. apply andb_true_iff.
      split; apply Qle_bool_iff; lra.
    + apply Qeq_bool_false in E. symmetry. apply andb_false_iff.
      destruct (Qlt_le_dec a b) as [L|L].
      * left. apply Qle_bool_false. exact L.
      * right. apply Qle_bool_false. lra.
  - intros a b c. rewrite !Qeq_bool_iff. lra.
Qed.

(** ** Properties of the pass that need no order law *)

Section AnyKey.
Context {A : Type} {K : Type} `{PyOrd K}.
Variable key : Source A -> K.

(** C10. Every rank emitted by one pass over [n] records lies between 1
    and [n], and its double is a positive integer. *)
Theorem rank_range (data : list (Rank_Data A)) :
  data <> [] ->
  Forall (fun r : Q =>
            (1 <= r)%Q /\ (r <= inject_Z (len data))%Q /\
            exists m : Z, (0 < m)%Z /\ (2 * r == inject_Z m)%Q)
         (ranks (rerank key data)).
Proof.
  intros N. destruct (rerank_scan key data N) as (head & it & E & ->).
  assert (len data = (1 + len it)%Z) as ->.
  { unfold len. rewrite <- (sorted_length (fun x => key (raw x)) data), E.
    cbn [List.length]. lia. }
  eapply Forall_impl; [|apply ranker_rank_within].
  change (len [head]) with 1%Z.
  intros r (b & d & -> & B & D & L). unfold average_rank.
  assert (2 <= b + 1 + b + d <= 2 * (1 + len it))%Z as [L1 L2] by lia.
  rewrite Zle_Qle in L1, L2.
  rewrite inject_Z_mult in L2. cbn [inject_Z] in L1, L2.
  repeat split.
  - apply Qle_shift_div_l; [reflexivity|]. exact L1.
  - apply Qle_shift_div_r; [reflexivity|]. now rewrite Qmult_comm.
  - exists (b + 1 + b + d)%Z. split; [lia|]. field.
Qed.

(** C6 (as the code has it). On an empty collection, sequence or
    iterator, [rank_data] emits nothing and fails with the [IndexError]
    of the access to the first element; no [EmptyInputError] is raised. *)
Theorem empty_input_IndexError :
  rank_data key (Sequence []) = raise IndexError /\
  rank_data key (Iterator []) = raise IndexError /\
  IndexError <> EmptyInputError.
Proof. repeat split. discriminate. Qed.
End AnyKey.

(** ** One pass over totally ordered keys: the leading records *)

Lemma filter_length_agree {T U} (p : T -> bool) (q : U -> bool) l1 l2 :
  Forall2 (fun a b => p a = q b) l1 l2 ->
  len (filter p l1) = len (filter q l2).
Proof.
  induction 1 as [|a b l1 l2 E F IH]; [reflexivity|].
  cbn [filter]. rewrite <- E. destruct (p a); [|exact IH].
  now rewrite !len_cons, IH.
Qed.

Lemma forallb_agree {T U} (p : T -> bool) (q : U -> bool) l1 l2 :
  Forall2 (fun a b => p a = q b) l1 l2 -> forallb p l1 = forallb q l2.
Proof.
  induction 1 as [|a b l1 l2 E F IH]; [reflexivity|].
  cbn [forallb]. now rewrite E, IH.
Qed.

Lemma forallb_perm {T} (p : T -> bool) l l' :
  Permutation l l' -> forallb p l = forallb p l'.
Proof.
  induction 1 as [|x l l' P IH|x y l|l l' l'' P IH P' IH']; cbn.
  - reflexivity.
  - now rewrite IH.
  - destruct (p x), (p y); reflexivity.
  - congruence.
Qed.

Lemma map_filter_agree {T U V} (f : T -> V) (g : U -> V)
      (p : T -> bool) (q : U -> bool) l1 l2 :
  Forall2 (fun a b => f a = g b /\ p a = q b) l1 l2 ->
  map f (filter p l1) = map g (filter q l2).
Proof.
  induction 1 as [|a b l1 l2 [E P] F IH]; [reflexivity|].
  cbn [filter]. rewrite <- P. destruct (p a); [|exact IH].
  cbn [map]. now rewrite E, IH.
Qed.

Section Leading.
Context {A : Type} {K : Type} `{TotalOrder K}.
Variable key : Source A -> K.

#[local] Abbreviation k := (fun x : Rank_Data A => key (raw x)).
#[local] Abbreviation RD := (Rank_Data A).

(** In an ascending sequence the records tied with the head are the
    ones that follow it at once. *)
Lemma ascending_take_while (head : RD) (it : list RD) :
  StronglySorted (ascending k) (head :: it) ->
  take_while (fun v => py_eq (k v) (k head)) it
  = filter (fun v => py_eq (k v) (k head)) it.
Proof.
  intros S. apply StronglySorted_inv in S. destruct S as [S F].
  revert F. induction S as [|v it S IH G]; intros F; [reflexivity|].
  cbn [take_while filter]. destruct (py_eq (k v) (k head)) eqn:E.
  - f_equal. apply IH. exact (Forall_inv_tail F).
  - symmetry. apply filter_none.
    pose proof (py_total _ _ (Forall_inv F) E) as HV.
    eapply Forall_impl; [|exact G]. intros y Y. cbn beta.
    rewrite py_eq_sym. apply py_lt_not_eq.
    exact (py_lt_le _ _ _ HV Y).
Qed.

(** The head of the sorted input has the smallest key: a record leads
    exactly when it is tied with that head. *)
Lemma leading_head (data : list RD) (head : RD) (it : list RD) x :
  sorted k data = head :: it -> In x data ->
  leading key data x = py_eq (k x) (k head).
Proof.
  intros E I.
  pose proof (sorted_ascending k data) as S. rewrite E in S.
  apply StronglySorted_inv in S. destruct S as [_ F].
  pose proof (sorted_perm k data) as P. rewrite E in P.
  assert (forall y, In y data -> py_lt (k y) (k head) = false) as M.
  { intros y Y. apply (Permutation_in _ (Permutation_sym P)) in Y.
    destruct Y as [<-|Y]; [apply lt_irrefl|].
    rewrite Forall_forall in F. exact (F y Y). }
  assert (In head data) as HD by (apply (Permutation_in _ P); now left).
  destruct (py_eq (k x) (k head)) eqn:X.
  - unfold leading. apply forallb_forall. intros y Y.
    apply negb_true_iff. destruct (py_lt (k y) (k x)) eqn:L; [|reflexivity].
    pose proof (py_lt_eq _ _ _ L X) as C. now rewrite (M y Y) in C.
  - destruct (leading key data x) eqn:LD; [|reflexivity].
    unfold leading in LD. rewrite forallb_forall in LD.
    pose proof (LD head HD) as HX. apply negb_true_iff in HX.
    rewrite eq_trichotomy, HX, (M x I) in X. discriminate.
Qed.

Lemma py_eq_class (a c : K) :
  py_eq a c = true -> forall b, py_eq b a = py_eq b c.
Proof.
  intros E b. destruct (py_eq b c) eqn:B.
  - rewrite py_eq_sym in E. exact (eq_trans _ _ _ B E).
  - destruct (py_eq b a) eqn:B'; [|reflexivity].
    now rewrite (eq_trans _ _ _ B' E) in B.
Qed.

(** What a pass does: it emits the leading records, in input order,
    each with its fractional rank, and fails. *)
Lemma rerank_leading (data : list RD) :
  rerank key data
  = Gen (map (fun x => (rank_of key data x, x))
             (filter (leading key data) data))
        (Some RuntimeError).
Proof.
  destruct data as [|first rest] eqn:D; [reflexivity|]. rewrite <- D.
  assert (data <> []) as N by (rewrite D; discriminate). clear D.
  destruct (rerank_scan key data N) as (head & it & E & ->).
  rewrite ranker_first_run. f_equal.
  assert (first_run key head [] it = filter (leading key data) data) as G.
  { unfold first_run. cbn [app].
    pose proof (sorted_ascending k data) as S. rewrite E in S.
    rewrite (ascending_take_while head it S).
    rewrite (filter_ext_in (leading key data)
                           (fun x => py_eq (k x) (k head)) data)
      by (intros x I; exact (leading_head data head it x E I)).
    rewrite <- (sorted_stable k (k head) data), E. cbn [filter].
    now rewrite py_eq_refl. }
  rewrite G. unfold flush. apply map_ext_in. intros x I. f_equal.
  apply filter_In in I. destruct I as [I LD].
  unfold rank_of. f_equal.
  - unfold smaller. rewrite filter_none; [reflexivity|].
    unfold leading in LD. rewrite forallb_forall in LD.
    apply Forall_forall. intros y Y. apply negb_true_iff. now apply LD.
  - rewrite (leading_head data head it x E I) in LD.
    unfold tied. f_equal.
    rewrite (filter_ext_in (leading key data)
                           (fun y => py_eq (k y) (k head)) data)
      by (intros y Y; exact (leading_head data head it y E Y)).
    apply filter_ext. intros y. symmetry. now apply py_eq_class.
Qed.
End Leading.

(** ** Ranks depend on the order of the keys only *)

Lemma rerank_positive {A K} `{PyOrd K} (key : Source A -> K) data :
  Forall (fun r : Q => (0 < r)%Q) (ranks (rerank key data)).
Proof.
  destruct data as [|first rest] eqn:D; [constructor|]. rewrite <- D.
  assert (data <> []) as N by (rewrite D; discriminate).
  destruct (rerank_scan key data N) as (head & it & _ & ->).
  eapply Forall_impl; [|apply ranker_rank_within].
  intros r (b & d & -> & B & L & _). unfold average_rank.
  apply Qlt_shift_div_l; [reflexivity|].
  rewrite Qmult_0_l. change 0%Q with (inject_Z 0). rewrite <- Zlt_Qlt. lia.
Qed.

Lemma rerank_ranks {A K} `{TotalOrder K} (key : Source A -> K) data :
  ranks (rerank key data)
  = map (rank_of key data) (filter (leading key data) data).
Proof.
  rewrite rerank_leading. unfold ranks. cbn [yielded].
  now rewrite map_map.
Qed.

(** C9. Every rank of a pass is strictly positive; two inputs of the same
    size whose keys are ordered and tied alike get the same multiset of
    ranks, whatever their raw items are. *)
Theorem ranks_depend_on_key_order_only
  {A1 A2 K1 K2 : Type} `{TotalOrder K1} `{TotalOrder K2}
  (key1 : Source A1 -> K1) (key2 : Source A2 -> K2)
  (d1 : list (Rank_Data A1)) :
  Forall (fun r : Q => (0 < r)%Q) (ranks (rerank key1 d1)) /\
  forall d2 : list (Rank_Data A2),
    same_order key1 key2 d1 d2 ->
    Permutation (ranks (rerank key1 d1)) (ranks (rerank key2 d2)).
Proof.
  split; [apply rerank_positive|].
  intros d2 O. rewrite (rerank_ranks key1 d1), (rerank_ranks key2 d2).
  assert (map (rank_of key1 d1) (filter (leading key1 d1) d1)
          = map (rank_of key2 d2) (filter (leading key2 d2) d2)) as ->;
    [|reflexivity].
  apply map_filter_agree. eapply Forall2_impl; [|exact O].
  intros x1 x2 F. split.
  - unfold rank_of, smaller, tied. f_equal.
    + apply filter_length_agree. eapply Forall2_impl; [|exact F].
      now intros y1 y2 [L _].
    + apply filter_length_agree. eapply Forall2_impl; [|exact F].
      now intros y1 y2 [_ E].
  - unfold leading. apply forallb_agree. eapply Forall2_impl; [|exact F].
    intros y1 y2 [L _]. now rewrite L.
Qed.

(** ** The top-level operation *)

Section TopLevel.
Context {A : Type} {K : Type} `{PyOrd K}.
Variable key : Source A -> K.

#[local] Abbreviation RD := (Rank_Data A).

Lemma unwrap_Ranked (l : list RD) :
  flat_map (fun x => match x with Ranked rd => [rd] | Other _ => [] end)
           (map Ranked l) = l.
Proof. induction l as [|x l IH]; [reflexivity|]. cbn. now rewrite IH. Qed.

Lemma all_Ranked (l : list RD) :
  forallb isinstance_Rank_Data (map Ranked l) = true.
Proof. induction l as [|x l IH]; [reflexivity|exact IH]. Qed.

Lemma as_Rank_Data_seq_all (items : list (Source A)) :
  forallb isinstance_Rank_Data items = true ->
  as_Rank_Data_seq items
  = Some (flat_map (fun x => match x with Ranked rd => [rd] | Other _ => [] end)
                   items).
Proof.
  induction items as [|[a|rd] items IH]; cbn; intros F;
    [reflexivity|discriminate|].
  now rewrite (IH F).
Qed.

Lemma as_Rank_Data_seq_mixed (items : list (Source A)) :
  existsb (fun x => negb (isinstance_Rank_Data x)) items = true ->
  as_Rank_Data_seq items = None.
Proof.
  induction items as [|[a|rd] items IH]; cbn; intros E;
    [discriminate|reflexivity|].
  now rewrite (IH E).
Qed.

Lemma rank_data_seq_normalized (items : list (Source A)) :
  items <> [] -> coherent items = true ->
  rank_data_seq key items
  = for_yield compose (rerank key (normalized items)).
Proof.
  destruct items as [|[a|rd] items]; intros N C; [congruence|reflexivity|].
  unfold rank_data_seq. cbn [isinstance_Rank_Data].
  now rewrite (as_Rank_Data_seq_all _ C).
Qed.

Lemma rank_data_normalized (seq_or_iter : Input A) :
  items_of seq_or_iter <> [] -> coherent (items_of seq_or_iter) = true ->
  rank_data key seq_or_iter
  = for_yield compose (rerank key (normalized (items_of seq_or_iter))).
Proof.
  destruct seq_or_iter as [items|items]; cbn [items_of rank_data];
    intros N C; [|rewrite yield_from_stop];
    now apply rank_data_seq_normalized.
Qed.

Lemma rank_data_ranked_records (previous : list RD) :
  previous <> [] ->
  rank_data key (Sequence (map Ranked previous))
  = for_yield compose (rerank key previous).
Proof.
  intros N.
  assert (normalized (map Ranked previous) = previous) as E.
  { destruct previous as [|rd previous]; [congruence|].
    exact (unwrap_Ranked (rd :: previous)). }
  rewrite (rank_data_normalized (Sequence (map Ranked previous)));
    cbn [items_of].
  - now rewrite E.
  - destruct previous; [congruence|discriminate].
  - destruct previous as [|rd previous]; [congruence|].
    exact (all_Ranked (rd :: previous)).
Qed.

(** A pass by itself never ends normally. *)
Lemma rerank_raised (data : list RD) :
  raised (rerank key data) = Some RuntimeError.
Proof.
  destruct data as [|first rest] eqn:D; [reflexivity|]. rewrite <- D.
  assert (data <> []) as N by (rewrite D; discriminate).
  destruct (rerank_scan key data N) as (head & it & _ & ->).
  now rewrite ranker_first_run.
Qed.
End TopLevel.

(** ** Further properties: the generators, whatever the keys *)

Section MoreAnyKey.
Context {A : Type} {K : Type} `{PyOrd K}.
Variable key : Source A -> K.

#[local] Abbreviation RD := (Rank_Data A).

(** X1. [yield_sequence] pairs every item of the iterator with the rank,
    in order, and then fails: the [next] that finds the iterator
    exhausted raises [StopIteration] inside the generator, which
    surfaces as [RuntimeError].  It never ends normally. *)
Theorem yield_sequence_fails_after_pairs (rank : Q)
        (same_rank_iter : list RD) :
  yield_sequence rank same_rank_iter
  = Gen (map (fun member => (rank, member)) same_rank_iter)
        (Some RuntimeError).
Proof. apply yield_sequence_eq. Qed.

(** X4. When the first item is a [Rank_Data] and some later item is not,
    [rank_data] emits nothing and fails with [AttributeError]: only the
    first item is inspected before the items are used as records. *)
Theorem mixed_input_raises (rd : RD) (rest : list (Source A)) :
  existsb (fun x => negb (isinstance_Rank_Data x)) rest = true ->
  rank_data key (Sequence (Ranked rd :: rest)) = raise AttributeError /\
  rank_data key (Iterator (Ranked rd :: rest)) = raise AttributeError.
Proof.
  intros E.
  assert (rank_data_seq key (Ranked rd :: rest) = raise AttributeError) as R.
  { unfold rank_data_seq. cbn [isinstance_Rank_Data].
    now rewrite (as_Rank_Data_seq_mixed (Ranked rd :: rest)). }
  cbn [rank_data]. now rewrite R.
Qed.

(** X6. A pass over records that all carry [m] ranks emits records that
    all carry [m + 1] ranks. *)
Theorem rank_seq_grows (previous : list RD) (m : nat) :
  Forall (fun rd => List.length (rank_seq rd) = m) previous ->
  Forall (fun rd => List.length (rank_seq rd) = S m)
         (yielded (rank_data key (Sequence (map Ranked previous)))).
Proof.
  intros F. destruct previous as [|rd0 previous0] eqn:D; [constructor|].
  rewrite <- D in *.
  assert (previous <> []) as N by (rewrite D; discriminate). clear D.
  rewrite (rank_data_ranked_records key previous N).
  cbn [for_yield yielded]. apply Forall_forall. intros out I.
  apply in_map_iff in I. destruct I as ([r rd] & <- & I).
  pose proof (rerank_emits_input key previous) as E.
  rewrite Forall_forall in E. specialize (E _ I). cbn [snd] in E.
  rewrite Forall_forall in F. cbn [compose rank_seq].
  rewrite length_app, (F rd E). cbn. lia.
Qed.

(** X17. [rank_data] never ends normally: on every input, sequence or
    iterator, the generator ends with an exception. *)
Theorem rank_data_never_ends_normally (seq_or_iter : Input A) :
  raised (rank_data key seq_or_iter) <> None.
Proof.
  assert (forall items, raised (rank_data_seq key items) <> None) as S.
  { intros [|first items]; [discriminate|]. unfold rank_data_seq.
    destruct (isinstance_Rank_Data first).
    - destruct (as_Rank_Data_seq (first :: items)); [|discriminate].
      cbn [for_yield raised]. now rewrite rerank_raised.
    - cbn [for_yield raised]. now rewrite rerank_raised. }
  destruct seq_or_iter as [items|items]; cbn [rank_data];
    [|rewrite yield_from_stop]; apply S.
Qed.
End MoreAnyKey.

(** ** Further properties: one pass over totally ordered keys *)

Section MoreOrdered.
Context {A : Type} {K : Type} `{TotalOrder K}.
Variable key : Source A -> K.

#[local] Abbreviation k := (fun x : Rank_Data A => key (raw x)).
#[local] Abbreviation RD := (Rank_Data A).

Lemma leading_tied (data : list RD) x1 x2 :
  In x1 data -> In x2 data ->
  leading key data x1 = true -> leading key data x2 = true ->
  py_eq (k x1) (k x2) = true.
Proof.
  unfold leading. rewrite !forallb_forall. intros I1 I2 L1 L2.
  pose proof (L1 x2 I2) as A21. pose proof (L2 x1 I1) as A12.
  apply negb_true_iff in A21, A12.
  now rewrite eq_trichotomy, A12, A21.
Qed.

Lemma leading_smaller (data : list RD) x :
  leading key data x = true -> smaller key x data = [].
Proof.
  unfold leading, smaller. rewrite forallb_forall. intros L.
  apply filter_none, Forall_forall. intros y Y.
  apply negb_true_iff. now apply L.
Qed.

Lemma rerank_leading_tied_rank (data : list RD) :
  rerank key data
  = Gen (map (fun x =>
                ((inject_Z (0 + 1 + 0 + len (tied key x data)) / 2)%Q, x))
             (filter (leading key data) data))
        (Some RuntimeError).
Proof.
  rewrite rerank_leading. f_equal. apply map_ext_in. intros x I.
  apply filter_In in I. destruct I as [_ L]. f_equal.
  unfold rank_of. now rewrite (leading_smaller data x L).
Qed.

(** X7. What one pass does: it emits exactly the records of the smallest
    key, in input order, each with the rank [(0 + 1 + 0 + t) / 2] for
    the [t] records of that key, and then fails with [RuntimeError];
    the records of every larger key are never ranked. *)
Theorem rerank_emits_leading_records_only (data : list RD) :
  rerank key data
  = Gen (map (fun x =>
                ((inject_Z (0 + 1 + 0 + len (tied key x data)) / 2)%Q, x))
             (filter (leading key data) data))
        (Some RuntimeError).
Proof. apply rerank_leading_tied_rank. Qed.

(** X9. All records one pass emits have the same key and the same rank. *)
Theorem emitted_records_are_tied (data : list RD) (r1 r2 : Q) (x1 x2 : RD) :
  In (r1, x1) (yielded (rerank key data)) ->
  In (r2, x2) (yielded (rerank key data)) ->
  py_eq (k x1) (k x2) = true /\ r1 = r2.
Proof.
  rewrite rerank_leading. cbn [yielded]. intros I1 I2.
  apply in_map_iff in I1, I2.
  destruct I1 as (y1 & E1 & I1). destruct I2 as (y2 & E2 & I2).
  inversion E1; subst. inversion E2; subst. clear E1 E2.
  apply filter_In in I1, I2.
  destruct I1 as [I1 L1]. destruct I2 as [I2 L2].
  pose proof (leading_tied data x1 x2 I1 I2 L1 L2) as E.
  split; [exact E|]. unfold rank_of.
  rewrite (leading_smaller data x1 L1), (leading_smaller data x2 L2).
  f_equal. unfold tied. f_equal. apply filter_ext. intros y.
  now apply py_eq_class.
Qed.

(** X10. The order of the input does not matter to the ranks: a permuted
    input gives the same (rank, record) pairs, up to their order among
    tied records. *)
Theorem rank_ignores_input_order (data data' : list RD) :
  Permutation data data' ->
  Permutation (yielded (rerank key data)) (yielded (rerank key data')).
Proof.
  intros P. rewrite !rerank_leading. cbn [yielded].
  rewrite (map_ext (fun x => (rank_of key data x, x))
                   (fun x => (rank_of key data' x, x)))
    by (intros x; now rewrite (rank_of_perm key data data' x P)).
  apply Permutation_map.
  rewrite (filter_ext (leading key data) (leading key data'))
    by (intros x; apply forallb_perm; exact P).
  now apply filter_perm.
Qed.

(** X13. On a non-empty input in the shapes it is written for,
    [rank_data] emits only the records of the smallest key, each as
    [Rank_Data(rank_seq + (rank,), raw)] with the rank
    [(0 + 1 + 0 + t) / 2] of a leading tie group of [t], and then fails
    with [RuntimeError]. *)
Theorem rank_data_emits_leading_records_only (seq_or_iter : Input A) :
  items_of seq_or_iter <> [] ->
  coherent (items_of seq_or_iter) = true ->
  rank_data key seq_or_iter
  = Gen (map (fun x =>
                mkRank_Data
                  (rank_seq x
                     ++ [(inject_Z
                            (0 + 1 + 0
                             + len (tied key x
                                      (normalized (items_of seq_or_iter))))
                          / 2)%Q])
                  (raw x))
             (filter (leading key (normalized (items_of seq_or_iter)))
                     (normalized (items_of seq_or_iter))))
        (Some RuntimeError).
Proof.
  intros N C. rewrite (rank_data_normalized key seq_or_iter N C).
  rewrite rerank_leading_tied_rank. unfold for_yield.
  cbn [yielded raised]. now rewrite map_map.
Qed.
End MoreOrdered.

(** ** The module's doctests, as the code runs them *)

Module OnDoctests.
Import Doctest.

(** C1. On [scalars] the pass emits [(1.0, 0.8)] and fails: the run of
    the two [1.2] at positions 2 and 3, for which the doctest shows the
    rank [2.5], is never ranked. *)
Theorem tie_run_not_ranked :
  map shown_pair (yielded (rerank identity (map unranked scalars)))
  = [(1, Other 0.8)]%Q /\
  raised (rerank identity (map unranked scalars)) = Some RuntimeError.
Proof. split; vm_compute; reflexivity. Qed.

(** C2. On [pairs] ranked by [x[0]] the emitted ranks add up to 1, not
    to [5 * 6 / 2]: the pass fails after the first record. *)
Theorem ranks_sum_short :
  (Qsum (ranks (rerank item0 (map unranked pairs))) == 1)%Q /\
  ~ (Qsum (ranks (rerank item0 (map unranked pairs)))
     == inject_Z 5 * (inject_Z 5 + 1) / 2)%Q /\
  raised (rerank item0 (map unranked pairs)) = Some RuntimeError.
Proof. repeat split; vm_compute; congruence. Qed.

(** C3. On the five [pairs], [rank_data] emits one record and fails. *)
Theorem one_record_of_five :
  map shown (yielded (rank_data item0 (Sequence pairs)))
  = [([1], Other (5, 1.2))]%Q /\
  raised (rank_data item0 (Sequence pairs)) = Some RuntimeError.
Proof. split; vm_compute; reflexivity. Qed.

(** C4. With the sorted sequence exhausted, [ranker] emits the members
    of the final run with the rank [(base + 1 + base + 2) / 2], and the
    scan then ends with [RuntimeError], not normally. *)
Theorem final_run_then_RuntimeError :
  map shown_pair
      (yielded (ranker identity [] 1
                  [unranked (Other 1.2%Q); unranked (Other 1.2%Q)]))
  = [(5 # 2, Other 1.2); (5 # 2, Other 1.2)]%Q /\
  raised (ranker identity [] 1
            [unranked (Other 1.2%Q); unranked (Other 1.2%Q)])
  = Some RuntimeError.
Proof. split; vm_compute; reflexivity. Qed.

(** C5. The first pass of the two-pass doctest fails, so [rank_x] is
    never bound; handed the [rank_x] the doctest expects, the second
    pass emits one record, with its rank appended, and fails. *)
Theorem second_pass_stops_short :
  raised (rank_data item0 (Sequence pairs)) = Some RuntimeError /\
  map shown (yielded (rank_data item1 (Sequence (map Ranked rank_x))))
  = [([5; 1], Other (32, 0.8))]%Q /\
  raised (rank_data item1 (Sequence (map Ranked rank_x)))
  = Some RuntimeError.
Proof. repeat split; vm_compute; reflexivity. Qed.

(** C7. The five [pairs] have distinct [x[0]]; the pass emits the rank
    1 of the smallest and fails: the ranks 2 to 5 are never emitted. *)
Theorem distinct_keys_one_rank :
  map Qred (ranks (rerank item0 (map unranked pairs))) = [1%Q] /\
  raised (rerank item0 (map unranked pairs)) = Some RuntimeError.
Proof. split; vm_compute; reflexivity. Qed.

(** C8. Ranked by [x[1]], the two [pairs] tied at [1.2] are never
    emitted: the pass emits [(32, 0.8)] and fails. *)
Theorem tied_pair_not_emitted :
  map shown_pair (yielded (rerank item1 (map unranked pairs)))
  = [(1, Other (32, 0.8))]%Q /\
  raised (rerank item1 (map unranked pairs)) = Some RuntimeError.
Proof. split; vm_compute; reflexivity. Qed.

End OnDoctests.

(** ** The claims on the data of the doctests *)

Module Witness.
Import Doctest.

Lemma same_order_scalars_marks :
  same_order identity mark (map unranked scalars) marks.
Proof. repeat constructor. Defined.

Lemma ranks_depend_on_key_order_only_witness :
  Forall (fun r : Q => (0 < r)%Q)
         (ranks (rerank identity (map unranked scalars))) /\
  Permutation (ranks (rerank identity (map unranked scalars)))
              (ranks (rerank mark marks)).
Proof.
  destruct (ranks_depend_on_key_order_only identity mark
              (map unranked scalars)) as [P F].
  exact (conj P (F marks same_order_scalars_marks)).
Defined.

Lemma rank_range_witness :
  Forall (fun r : Q =>
            (1 <= r)%Q /\ (r <= inject_Z 5)%Q /\
            exists m : Z, (0 < m)%Z /\ (2 * r == inject_Z m)%Q)
         (ranks (rerank identity (map unranked scalars))).
Proof.
  apply (rank_range identity (map unranked scalars)). discriminate.
Defined.

(** C6, as stated, fails on the empty list: the exception that ends
    [rank_data] is not an [EmptyInputError]. *)
Lemma empty_input_not_EmptyInputError :
  raised (rank_data identity (Sequence [])) <> Some EmptyInputError.
Proof. cbn. discriminate. Qed.

End Witness.

(** ** The further properties on the data of the doctests *)

Module MoreWitness.
Import Doctest.

Lemma mixed_input_raises_witness :
  rank_data identity
    (Sequence [Ranked (unranked (Other 0.8%Q)); Other 1.2%Q; Other 2.3%Q])
  = raise AttributeError /\
  rank_data identity
    (Iterator [Ranked (unranked (Other 0.8%Q)); Other 1.2%Q; Other 2.3%Q])
  = raise AttributeError.
Proof.
  apply (mixed_input_raises identity (unranked (Other 0.8%Q))
           [Other 1.2%Q; Other 2.3%Q]).
  reflexivity.
Defined.

Lemma rank_seq_grows_witness :
  Forall (fun rd => List.length (rank_seq rd) = 1%nat)
         (yielded (rank_data item0
                     (Sequence (map Ranked (map unranked pairs))))).
Proof.
  apply (rank_seq_grows item0 (map unranked pairs) 0).
  repeat constructor.
Defined.

Lemma rerank_emits_leading_records_only_witness :
  rerank identity (map unranked scalars)
  = Gen (map (fun x =>
                ((inject_Z
                    (0 + 1 + 0
                     + len (tied identity x (map unranked scalars))) / 2)%Q,
                 x))
             (filter (leading identity (map unranked scalars))
                     (map unranked scalars)))
        (Some RuntimeError).
Proof.
  exact (rerank_emits_leading_records_only identity (map unranked scalars)).
Defined.

Lemma emitted_records_are_tied_witness :
  py_eq (item1 (Other (21, 0.8)%Q)) (item1 (Other (5, 0.8)%Q)) = true /\
  (3 # 2)%Q = (3 # 2)%Q.
Proof.
  apply (emitted_records_are_tied item1
           (map unranked (map Other [(7, 1.2); (21, 0.8); (5, 0.8)]%Q))
           (3 # 2)%Q (3 # 2)%Q
           (unranked (Other (21, 0.8)%Q)) (unranked (Other (5, 0.8)%Q))).
  - vm_compute. left. reflexivity.
  - vm_compute. right. left. reflexivity.
Defined.

Lemma rank_ignores_input_order_witness :
  Permutation
    (yielded (rerank identity
                [unranked (Other 1.2%Q); unranked (Other 0.8%Q)]))
    (yielded (rerank identity
                [unranked (Other 0.8%Q); unranked (Other 1.2%Q)])).
Proof.
  apply (rank_ignores_input_order identity
           [unranked (Other 1.2%Q); unranked (Other 0.8%Q)]
           [unranked (Other 0.8%Q); unranked (Other 1.2%Q)]).
  apply perm_swap.
Defined.

Lemma rank_data_emits_leading_records_only_witness :
  rank_data item0 (Iterator pairs)
  = Gen (map (fun x =>
                mkRank_Data
                  (rank_seq x
                     ++ [(inject_Z
                            (0 + 1 + 0
                             + len (tied item0 x (normalized pairs)))
                          / 2)%Q])
                  (raw x))
             (filter (leading item0 (normalized pairs)) (normalized pairs)))
        (Some RuntimeError).
Proof.
  apply (rank_data_emits_leading_records_only item0 (Iterator pairs)).
  - discriminate.
  - reflexivity.
Defined.

End MoreWitness.
